(** * The static-site data loader of neuralake

    Source: [src/client/neuralake/export/static_site/src/lib/data.ts]

<<
    import { ExportedNeuralake } from './types'

    const response = await fetch('/data.json')
    if (!response.ok) {
      throw new Error(`Failed to load data: ${response.statusText}`)
    }

    export const neuralake = await response.json() as ExportedNeuralake
>>

    The module is a straight-line program over two host operations,
    [fetch] and [Response.json], and one exported binding.  The host
    operations are modelled after the Fetch standard and ECMA-404; the
    statements about the loader quantify over the network (what [fetch]
    answers) and, where they are general, over the host's JSON parser. *)

From Stdlib Require Import String Ascii List ZArith NArith Bool Lia.
Import ListNotations.

Local Open Scope list_scope.
Local Open Scope string_scope.

(** ** JSON values *)

Module Json.

(** A JSON number, kept as the exact decimal [mantissa * 10 ^ exponent] its
    literal denotes.  The host rounds this value to a binary64; that rounding
    is not part of this model. *)
Record num := Num { mantissa : Z; exponent : Z }.

(** The values [JSON.parse] builds.  An object is the list of its own
    properties in creation order. *)
#[warnings="-register-all"]
Inductive value : Type :=
| JNull
| JBool (b : bool)
| JNumber (n : num)
| JString (s : string)
| JArray (items : list value)
| JObject (props : list (string * value)).

(** [CreateDataProperty]: a key that is already present keeps its place and
    takes the new value, a new key goes last. *)
Fixpoint set_prop (k : string) (v : value) (props : list (string * value))
  : list (string * value) :=
  match props with
  | [] => [(k, v)]
  | (k', v') :: rest =>
      if String.eqb k k' then (k, v) :: rest
      else (k', v') :: set_prop k v rest
  end.

(** *** Lexical level *)

(** The quotation mark, U+0022. *)
Definition dquote : ascii := ascii_of_N 34.

(** [quoted s] is [s] between quotation marks. *)
Definition quoted (s : string) : string :=
  String dquote (s ++ String dquote EmptyString).

Definition is_ws (c : ascii) : bool :=
  let n := N_of_ascii c in
  (N.eqb n 32 || N.eqb n 9 || N.eqb n 10 || N.eqb n 13)%bool.

Fixpoint skip_ws (s : string) : string :=
  match s with
  | String c rest => if is_ws c then skip_ws rest else s
  | EmptyString => s
  end.

Definition digit_of (c : ascii) : option Z :=
  let n := N_of_ascii c in
  if (N.leb 48 n && N.leb n 57)%bool then Some (Z.of_N (n - 48)) else None.

Definition hex_of (c : ascii) : option N :=
  let n := N_of_ascii c in
  if (N.leb 48 n && N.leb n 57)%bool then Some (n - 48)%N
  else if (N.leb 65 n && N.leb n 70)%bool then Some (n - 55)%N
  else if (N.leb 97 n && N.leb n 102)%bool then Some (n - 87)%N
  else None.

(** A maximal run of decimal digits: its value so far, how many digits were
    read, and the rest of the input. *)
Fixpoint digits (s : string) (acc : Z) (count : nat) : Z * nat * string :=
  match s with
  | String c rest =>
      match digit_of c with
      | Some d => digits rest (acc * 10 + d) (S count)
      | None => (acc, count, s)
      end
  | EmptyString => (acc, count, s)
  end.

(** Drops the factors of ten of a mantissa, so that equal decimals are equal
    records. *)
Fixpoint normalise (fuel : nat) (m e : Z) : num :=
  match fuel with
  | O => Num m e
  | S fuel' =>
      if Z.eqb m 0 then Num 0 0
      else if Z.eqb (m mod 10) 0 then normalise fuel' (m / 10) (e + 1)
      else Num m e
  end.

(** A number literal: an optional minus sign, an integer part without a
    superfluous leading zero, an optional fraction of at least one digit, an
    optional exponent of at least one digit. *)
Definition parse_number (s : string) : option (num * string) :=
  let '(sign, s1) :=
    match s with
    | String "-" rest => ((-1)%Z, rest)
    | _ => (1%Z, s)
    end in
  let '(int_part, int_len, s2) := digits s1 0 0 in
  let leading_zero :=
    match s1 with
    | String "0" _ => Nat.ltb 1 int_len
    | _ => false
    end in
  if (Nat.eqb int_len 0 || leading_zero)%bool then None else
  let frac :=
    match s2 with
    | String "." rest =>
        let '(m, frac_len, s3) := digits rest int_part 0 in
        if Nat.eqb frac_len 0 then None else Some (m, frac_len, s3)
    | _ => Some (int_part, O, s2)
    end in
  match frac with
  | None => None
  | Some (m, frac_len, s3) =>
      let expo :=
        match s3 with
        | String c rest =>
            if (Ascii.eqb c "e" || Ascii.eqb c "E")%bool then
              let '(esign, s4) :=
                match rest with
                | String "-" rest' => ((-1)%Z, rest')
                | String "+" rest' => (1%Z, rest')
                | _ => (1%Z, rest)
                end in
              let '(e, e_len, s5) := digits s4 0 0 in
              if Nat.eqb e_len 0 then None else Some ((esign * e)%Z, s5)
            else Some (0%Z, s3)
        | EmptyString => Some (0%Z, s3)
        end in
      match expo with
      | None => None
      | Some (e, s5) =>
          Some (normalise (int_len + frac_len) (sign * m)
                          (e - Z.of_nat frac_len), s5)
      end
  end.

(** The UTF-8 bytes of a code point (a lone surrogate is written in the same
    three-byte form). *)
Definition utf8 (cp : N) : string :=
  let byte (n : N) := ascii_of_N n in
  let cont (n : N) := byte (128 + N.land n 63)%N in
  if N.ltb cp 128 then String (byte cp) EmptyString
  else if N.ltb cp 2048 then
    String (byte (192 + N.shiftr cp 6)%N) (String (cont cp) EmptyString)
  else if N.ltb cp 65536 then
    String (byte (224 + N.shiftr cp 12)%N)
      (String (cont (N.shiftr cp 6)) (String (cont cp) EmptyString))
  else
    String (byte (240 + N.shiftr cp 18)%N)
      (String (cont (N.shiftr cp 12))
         (String (cont (N.shiftr cp 6)) (String (cont cp) EmptyString))).

(** Four hexadecimal digits, as after [\u]. *)
Definition hex4 (s : string) : option (N * string) :=
  match s with
  | String a (String b (String c (String d rest))) =>
      match hex_of a, hex_of b, hex_of c, hex_of d with
      | Some x, Some y, Some z, Some w =>
          Some ((((x * 16 + y) * 16 + z) * 16 + w)%N, rest)
      | _, _, _, _ => None
      end
  | _ => None
  end.

Definition is_high_surrogate (u : N) : bool := (N.leb 55296 u && N.leb u 56319)%bool.
Definition is_low_surrogate (u : N) : bool := (N.leb 56320 u && N.leb u 57343)%bool.

(** The code point a [\uXXXX] escape stands for, taking a following low
    surrogate escape with it when [u] is a high surrogate. *)
Definition unicode_escape (u : N) (rest : string) : N * string :=
  if is_high_surrogate u then
    match rest with
    | String "\" (String "u" rest') =>
        match hex4 rest' with
        | Some (lo, rest'') =>
            if is_low_surrogate lo
            then ((65536 + (u - 55296) * 1024 + (lo - 56320))%N, rest'')
            else (u, rest)
        | None => (u, rest)
        end
    | _ => (u, rest)
    end
  else (u, rest).

(** The character a two-character escape stands for. *)
Definition simple_escape (e : ascii) : option ascii :=
  if Ascii.eqb e dquote then Some dquote
  else match e with
       | "\"%char => Some "\"%char
       | "/"%char => Some "/"%char
       | "b"%char => Some (ascii_of_N 8)
       | "f"%char => Some (ascii_of_N 12)
       | "n"%char => Some (ascii_of_N 10)
       | "r"%char => Some (ascii_of_N 13)
       | "t"%char => Some (ascii_of_N 9)
       | _ => None
       end.

(** The characters of a string literal after its opening quotation mark, up
    to and including the closing one.  [fuel] bounds the characters read. *)
Fixpoint parse_chars (fuel : nat) (s : string) : option (string * string) :=
  match fuel with
  | O => None
  | S fuel' =>
      match s with
      | EmptyString => None
      | String "\" (String "u" rest) =>
          match hex4 rest with
          | Some (u, rest1) =>
              let '(cp, rest2) := unicode_escape u rest1 in
              match parse_chars fuel' rest2 with
              | Some (str, rest') => Some (utf8 cp ++ str, rest')
              | None => None
              end
          | None => None
          end
      | String "\" (String e rest) =>
          match simple_escape e, parse_chars fuel' rest with
          | Some c, Some (str, rest') => Some (String c str, rest')
          | _, _ => None
          end
      | String c rest =>
          if Ascii.eqb c dquote then Some (EmptyString, rest)
          else if (N.ltb (N_of_ascii c) 32 || Ascii.eqb c "\")%bool then None
          else match parse_chars fuel' rest with
               | Some (str, rest') => Some (String c str, rest')
               | None => None
               end
      end
  end.

Definition parse_string (s : string) : option (string * string) :=
  match s with
  | String c rest =>
      if Ascii.eqb c dquote then parse_chars (S (String.length rest)) rest
      else None
  | EmptyString => None
  end.

(** *** Values *)

(** [strip_prefix p s] is what follows [p] in [s], when [s] starts with [p]. *)
Fixpoint strip_prefix (p s : string) : option string :=
  match p, s with
  | EmptyString, _ => Some s
  | String a p', String b s' => if Ascii.eqb a b then strip_prefix p' s' else None
  | String _ _, EmptyString => None
  end.

Definition parse_literal (lit : string) (v : value) (s : string)
  : option (value * string) :=
  match strip_prefix lit s with
  | Some rest => Some (v, rest)
  | None => None
  end.

(** Recursive descent over the grammar of ECMA-404.  [parse_value] reads one
    value after optional white space; [parse_elements] and [parse_members]
    read what follows the opening bracket of a non-empty array or object,
    [acc] holding what was read so far.  Every call spends one unit of
    [fuel]. *)
Fixpoint parse_value (fuel : nat) (s : string) : option (value * string) :=
  match fuel with
  | O => None
  | S fuel' =>
      match skip_ws s with
      | EmptyString => None
      | String c rest as s' =>
          match c with
          | "{"%char =>
              match skip_ws rest with
              | String "}" rest' => Some (JObject [], rest')
              | _ => parse_members fuel' rest []
              end
          | "["%char =>
              match skip_ws rest with
              | String "]" rest' => Some (JArray [], rest')
              | _ => parse_elements fuel' rest []
              end
          | "t"%char => parse_literal "true" (JBool true) s'
          | "f"%char => parse_literal "false" (JBool false) s'
          | "n"%char => parse_literal "null" JNull s'
          | _ =>
              if Ascii.eqb c dquote then
                match parse_string s' with
                | Some (str, rest') => Some (JString str, rest')
                | None => None
                end
              else
                match parse_number s' with
                | Some (n, rest') => Some (JNumber n, rest')
                | None => None
                end
          end
      end
  end
with parse_elements (fuel : nat) (s : string) (acc : list value)
  : option (value * string) :=
  match fuel with
  | O => None
  | S fuel' =>
      match parse_value fuel' s with
      | Some (v, rest) =>
          match skip_ws rest with
          | String "," rest' => parse_elements fuel' rest' (v :: acc)
          | String "]" rest' => Some (JArray (rev (v :: acc)), rest')
          | _ => None
          end
      | None => None
      end
  end
with parse_members (fuel : nat) (s : string) (acc : list (string * value))
  : option (value * string) :=
  match fuel with
  | O => None
  | S fuel' =>
      match parse_string (skip_ws s) with
      | Some (k, rest) =>
          match skip_ws rest with
          | String ":" rest1 =>
              match parse_value fuel' rest1 with
              | Some (v, rest2) =>
                  match skip_ws rest2 with
                  | String "," rest3 => parse_members fuel' rest3 (set_prop k v acc)
                  | String "}" rest3 => Some (JObject (set_prop k v acc), rest3)
                  | _ => None
                  end
              | None => None
              end
          | _ => None
          end
      | None => None
      end
  end.

(** [JSON.parse]: one value between optional white space and nothing else;
    [None] stands for the [SyntaxError] of a text that is not JSON.  The
    descent is given twice the length of the text, and two, as fuel. *)
Definition parse (text : string) : option value :=
  match parse_value (2 * String.length text + 2) text with
  | Some (v, rest) =>
      match skip_ws rest with
      | EmptyString => Some v
      | String _ _ => None
      end
  | None => None
  end.

End Json.

(** ** The host interface: Fetch *)

(** What the program can see of an HTTP response.  [body] is the text of the
    body, which [json] hands to the JSON parser. *)
Record Response := mkResponse {
  status : Z;
  statusText : string;
  headers : list (string * string);
  url : string;
  redirected : bool;
  body : string
}.

(** [response.ok]: the status is an ok status, 200 to 299 inclusive. *)
Definition ok (r : Response) : bool :=
  (Z.leb 200 (status r) && Z.leb (status r) 299)%bool.

(** The optional second argument of [fetch]. *)
Record RequestInit := mkInit {
  init_method : option string;
  init_headers : list (string * string);
  init_body : option string;
  init_credentials : option string
}.

(** The request [fetch] sends. *)
Record Request := mkRequest {
  req_method : string;
  req_url : string;
  req_headers : list (string * string);
  req_body : option string;
  req_credentials : string
}.

Definition or_default {A : Type} (d : A) (o : option A) : A :=
  match o with
  | Some a => a
  | None => d
  end.

(** [new Request(input, init)]: what [init] leaves out takes the defaults of
    the Fetch standard.  [input] stays the reference the program wrote; the
    host resolves it against the page's address. *)
Definition new_request (input : string) (init : option RequestInit) : Request :=
  match init with
  | None => mkRequest "GET" input [] None "same-origin"
  | Some i =>
      mkRequest (or_default "GET" (init_method i)) input (init_headers i)
                (init_body i) (or_default "same-origin" (init_credentials i))
  end.

(** The query of a URL reference: what stands between the first [?] and the
    fragment, if there is a [?] before the fragment. *)
Fixpoint until_hash (s : string) : string :=
  match s with
  | EmptyString => EmptyString
  | String "#" _ => EmptyString
  | String c rest => String c (until_hash rest)
  end.

Fixpoint url_query (u : string) : option string :=
  match u with
  | EmptyString => None
  | String "#" _ => None
  | String "?" rest => Some (until_hash rest)
  | String _ rest => url_query rest
  end.

(** What a program can throw. *)
Inductive exn : Type :=
| Error (message : string)   (* [new Error(message)] *)
| SyntaxError                (* [json]: the body is not JSON *)
| TypeError                  (* [fetch]: no response, a network error *)
| ReferenceError.            (* a binding read before its initialisation *)

(** What the host has been asked to do, oldest first: a call of [fetch] with
    its arguments and the answer it got ([None]: no response), and a read of
    a response's body. *)
Inductive event : Type :=
| Fetched (input : string) (init : option RequestInit) (answer : option Response)
| BodyRead (r : Response).

(** The network decides the answer to a request; it may look at everything
    that happened before, so that asking twice may be answered twice
    differently. *)
Definition network : Type := list event -> Request -> option Response.

(** ** Modules *)

(** The binding of [export const neuralake]: it exists from linking on and
    holds no value until its declaration has run. *)
Inductive binding : Type :=
| Uninitialized
| Initialized (v : Json.value).

(** A module is evaluated once; both results are remembered. *)
Inductive module_status : Type :=
| Linked
| Evaluated
| Failed (e : exn).

(** The state a run threads: the trace of host events, the status of the
    module [data.ts] and its exported binding. *)
Record realm := mkRealm {
  trace : list event;
  data_status : module_status;
  neuralake : binding
}.

Definition initial : realm := mkRealm [] Linked Uninitialized.

(** Computations that read and write the realm and may throw. *)
Definition M (A : Type) : Type := realm -> (A + exn) * realm.

Definition ret {A : Type} (a : A) : M A := fun w => (inl a, w).

Definition throw {A : Type} (e : exn) : M A := fun w => (inr e, w).

Definition bind {A B : Type} (c : M A) (k : A -> M B) : M B :=
  fun w =>
    match c w with
    | (inl a, w') => k a w'
    | (inr e, w') => (inr e, w')
    end.

Notation "x <- c ;; k" := (bind c (fun x => k))
  (at level 61, c at next level, right associativity).
Notation "c ;; k" := (bind c (fun _ => k))
  (at level 61, right associativity).

Definition emit (ev : event) : M unit :=
  fun w => (inl tt, mkRealm (trace w ++ [ev])%list (data_status w) (neuralake w)).

Section Loader.

(** The two things the loader does not decide: what the network answers and
    how the host parses JSON. *)
Variable net : network.
Variable JSON_parse : string -> option Json.value.

(** [await fetch(input, init)] *)
Definition fetch (input : string) (init : option RequestInit) : M Response :=
  fun w =>
    let answer := net (trace w) (new_request input init) in
    match answer with
    | Some r => (emit (Fetched input init answer) ;; ret r) w
    | None => (emit (Fetched input init answer) ;; throw TypeError) w
    end.

(** [await response.json()], for a body that arrives: the text is parsed,
    and a text that is not JSON is a [SyntaxError].  A body that cannot be
    read, on which the host rejects with an error of its own, is left out. *)
Definition json (r : Response) : M Json.value :=
  emit (BodyRead r) ;;
  match JSON_parse (body r) with
  | Some v => ret v
  | None => throw SyntaxError
  end.

(** [export const neuralake = v] *)
Definition init_neuralake (v : Json.value) : M unit :=
  fun w => (inl tt, mkRealm (trace w) (data_status w) (Initialized v)).

(** The body of [data.ts]. *)
Definition data_ts : M unit :=
  response <- fetch "/data.json" None ;;
  (if negb (ok response)
   then throw (Error ("Failed to load data: " ++ statusText response))
   else ret tt) ;;
  v <- json response ;;
  init_neuralake v.

(** [import { neuralake } from './lib/data']: the first import evaluates the
    module, and its result, normal or thrown, is what every import gets. *)
Definition import_data : M unit :=
  fun w =>
    match data_status w with
    | Linked =>
        match data_ts w with
        | (inl tt, w') => (inl tt, mkRealm (trace w') Evaluated (neuralake w'))
        | (inr e, w') => (inr e, mkRealm (trace w') (Failed e) (neuralake w'))
        end
    | Evaluated => (inl tt, w)
    | Failed e => (inr e, w)
    end.

(** A consumer's read of the imported [neuralake]. *)
Definition get_neuralake : M Json.value :=
  fun w =>
    match neuralake w with
    | Initialized v => (inl v, w)
    | Uninitialized => (inr ReferenceError, w)
    end.

(** One execution: the module is loaded into a fresh realm. *)
Definition outcome : unit + exn := fst (import_data initial).
Definition final : realm := snd (import_data initial).

(** The value the loader exposes after its execution, if any. *)
Definition exposed : option Json.value :=
  match neuralake final with
  | Initialized v => Some v
  | Uninitialized => None
  end.

(** A consumer that imports the module and reads [neuralake], [n] times. *)
Fixpoint consume (n : nat) : M (list Json.value) :=
  match n with
  | O => ret []
  | S n' =>
      import_data ;;
      v <- get_neuralake ;;
      vs <- consume n' ;;
      ret (v :: vs)
  end.

End Loader.

(** ** Reading traces *)

Fixpoint fetches (t : list event) : list (string * option RequestInit) :=
  match t with
  | [] => []
  | Fetched input init _ :: t' => (input, init) :: fetches t'
  | BodyRead _ :: t' => fetches t'
  end.

Fixpoint responses (t : list event) : list Response :=
  match t with
  | [] => []
  | Fetched _ _ (Some r) :: t' => r :: responses t'
  | _ :: t' => responses t'
  end.

(** The execution over [net] receives the response [r]. *)
Definition receives (net : network) (JSON_parse : string -> option Json.value)
  (r : Response) : Prop :=
  In r (responses (trace (final net JSON_parse))).

(** The error the loader throws on a response that is not ok. *)
Definition transport_failure (r : Response) : exn :=
  Error ("Failed to load data: " ++ statusText r).

Definition is_transport_failure (e : exn) : Prop :=
  exists text, e = Error ("Failed to load data: " ++ text).

(** [contains s t]: [t] occurs in [s]. *)
Definition contains (s t : string) : Prop :=
  exists pre post, s = pre ++ t ++ post.

(** ** Scenarios *)

(** A network that answers every request with [r], and one that is down. *)
Definition serve (r : Response) : network := fun _ _ => Some r.
Definition unreachable : network := fun _ _ => None.

Definition respond (code : Z) (text : string) (content : string) : Response :=
  mkResponse code text [("content-type", "application/json")] "/data.json" false content.

Definition tables_body : string := "{" ++ Json.quoted "tables" ++ ": []}".
Definition tables_value : Json.value := Json.JObject [("tables", Json.JArray [])].

(** The request of the loader's one call of [fetch]. *)
Definition data_request : Request := new_request "/data.json" None.

(** The four runs of the loader, by what the network answers to its request
    and by what the parser makes of the body. *)
Inductive run_shape (net : network) (JSON_parse : string -> option Json.value)
  : (unit + exn) * realm -> Prop :=
| ShapeUnreachable :
    net [] data_request = None ->
    run_shape net JSON_parse
      (inr TypeError,
       mkRealm [Fetched "/data.json" None None] (Failed TypeError) Uninitialized)
| ShapeRefused r :
    net [] data_request = Some r -> ok r = false ->
    run_shape net JSON_parse
      (inr (transport_failure r),
       mkRealm [Fetched "/data.json" None (Some r)]
               (Failed (transport_failure r)) Uninitialized)
| ShapeMalformed r :
    net [] data_request = Some r -> ok r = true ->
    JSON_parse (body r) = None ->
    run_shape net JSON_parse
      (inr SyntaxError,
       mkRealm [Fetched "/data.json" None (Some r); BodyRead r]
               (Failed SyntaxError) Uninitialized)
| ShapeLoaded r v :
    net [] data_request = Some r -> ok r = true ->
    JSON_parse (body r) = Some v ->
    run_shape net JSON_parse
      (inl tt,
       mkRealm [Fetched "/data.json" None (Some r); BodyRead r]
               Evaluated (Initialized v)).

Ltac run_loader :=
  unfold outcome, final, exposed, import_data, data_ts, fetch, json,
    init_neuralake, bind, emit, ret, throw, transport_failure, data_request in *;
  simpl in *.

(** * Properties *)

(** ** Runs of the loader, by what the network answers *)

Section Runs.

Variable net : network.
Variable JSON_parse : string -> option Json.value.

Lemma run_unreachable :
  net [] data_request = None ->
  import_data net JSON_parse initial =
    (inr TypeError,
     mkRealm [Fetched "/data.json" None None] (Failed TypeError) Uninitialized).
Proof.
  intros Hnet. run_loader. rewrite Hnet. reflexivity.
Qed.

Lemma run_refused (r : Response) :
  net [] data_request = Some r ->
  ok r = false ->
  import_data net JSON_parse initial =
    (inr (transport_failure r),
     mkRealm [Fetched "/data.json" None (Some r)]
             (Failed (transport_failure r)) Uninitialized).
Proof.
  intros Hnet Hok. run_loader. rewrite Hnet. simpl. rewrite Hok. reflexivity.
Qed.

Lemma run_malformed (r : Response) :
  net [] data_request = Some r ->
  ok r = true ->
  JSON_parse (body r) = None ->
  import_data net JSON_parse initial =
    (inr SyntaxError,
     mkRealm [Fetched "/data.json" None (Some r); BodyRead r]
             (Failed SyntaxError) Uninitialized).
Proof.
  intros Hnet Hok Hparse. run_loader.
  rewrite Hnet. simpl. rewrite Hok. simpl. rewrite Hparse. reflexivity.
Qed.

Lemma run_loaded (r : Response) (v : Json.value) :
  net [] data_request = Some r ->
  ok r = true ->
  JSON_parse (body r) = Some v ->
  import_data net JSON_parse initial =
    (inl tt,
     mkRealm [Fetched "/data.json" None (Some r); BodyRead r]
             Evaluated (Initialized v)).
Proof.
  intros Hnet Hok Hparse. run_loader.
  rewrite Hnet. simpl. rewrite Hok. simpl. rewrite Hparse. reflexivity.
Qed.

Lemma run_cases : run_shape net JSON_parse (import_data net JSON_parse initial).
Proof.
  destruct (net [] data_request) as [r|] eqn:Hnet.
  - destruct (ok r) eqn:Hok.
    + destruct (JSON_parse (body r)) as [v|] eqn:Hparse.
      * rewrite (run_loaded r v Hnet Hok Hparse). now apply ShapeLoaded.
      * rewrite (run_malformed r Hnet Hok Hparse). now apply ShapeMalformed.
    + rewrite (run_refused r Hnet Hok). now apply ShapeRefused.
  - rewrite (run_unreachable Hnet). now apply ShapeUnreachable.
Qed.

(** The response an execution receives is the network's answer to the
    loader's request. *)
Lemma receives_answer (r : Response) :
  receives net JSON_parse r -> net [] data_request = Some r.
Proof.
  unfold receives, final. intros Hin.
  destruct run_cases as [Hnet | r' Hnet Hok | r' Hnet Hok Hp | r' v Hnet Hok Hp];
    simpl in Hin; try contradiction;
    destruct Hin as [<- | []]; exact Hnet.
Qed.

Lemma answer_receives (r : Response) :
  net [] data_request = Some r -> receives net JSON_parse r.
Proof.
  intros Hnet. unfold receives, final.
  destruct run_cases as [Hnet' | r' Hnet' Hok | r' Hnet' Hok Hp | r' v Hnet' Hok Hp];
    rewrite Hnet in Hnet'; try discriminate;
    injection Hnet' as <-; simpl; now left.
Qed.

End Runs.

(** ** The parser on some texts *)

Example parse_tables : Json.parse tables_body = Some tables_value.
Proof. vm_compute. reflexivity. Qed.

Example parse_white_space :
  Json.parse (" [ true , null,{ } ," ++ Json.quoted "a\n" ++ ", -12.50e1 ] ")
  = Some (Json.JArray [Json.JBool true; Json.JNull; Json.JObject [];
                       Json.JString (String "a" (String (ascii_of_N 10) EmptyString));
                       Json.JNumber (Json.Num (-125) 0)]).
Proof. vm_compute. reflexivity. Qed.

Example parse_repeated_key :
  Json.parse ("{" ++ Json.quoted "a" ++ ":1," ++ Json.quoted "b" ++ ":2,"
                  ++ Json.quoted "a" ++ ":3}")
  = Some (Json.JObject [("a", Json.JNumber (Json.Num 3 0));
                        ("b", Json.JNumber (Json.Num 2 0))]).
Proof. vm_compute. reflexivity. Qed.

Example parse_rejects :
  map Json.parse
      [EmptyString; "<html>"; "{"; "[1,]"; "01"; "1."; "nul"; "true false";
       "{a:1}"; Json.quoted "\x"]
  = [None; None; None; None; None; None; None; None; None; None].
Proof. vm_compute. reflexivity. Qed.

(** ** After the load *)

(** Reading an evaluated module: every import is a no-op and every read gives
    the value of the binding. *)
Lemma consume_evaluated (net : network) (JSON_parse : string -> option Json.value)
  (v : Json.value) (n : nat) (w : realm) :
  data_status w = Evaluated ->
  neuralake w = Initialized v ->
  consume net JSON_parse n w = (inl (repeat v n), w).
Proof.
  intros Hst Hbind. induction n as [|n IH]; simpl.
  - reflexivity.
  - unfold bind at 1. unfold import_data. rewrite Hst.
    unfold bind at 1. unfold get_neuralake. rewrite Hbind.
    unfold bind. rewrite IH. reflexivity.
Qed.

(** Importing a module whose evaluation threw throws the same error again. *)
Lemma consume_failed (net : network) (JSON_parse : string -> option Json.value)
  (e : exn) (n : nat) (w : realm) :
  data_status w = Failed e ->
  consume net JSON_parse (S n) w = (inr e, w).
Proof.
  intros Hst. simpl. unfold bind at 1. unfold import_data. rewrite Hst.
  reflexivity.
Qed.

Lemma append_empty_r (s : string) : s ++ EmptyString = s.
Proof.
  induction s as [|c s IH]; simpl; [reflexivity | now rewrite IH].
Qed.

Lemma ok_range (r : Response) :
  ok r = true <-> (200 <= status r <= 299)%Z.
Proof.
  unfold ok. rewrite andb_true_iff, !Z.leb_le. tauto.
Qed.

Lemma transport_failure_is (r : Response) :
  is_transport_failure (transport_failure r).
Proof. now exists (statusText r). Qed.

Lemma syntax_error_is_not : ~ is_transport_failure SyntaxError.
Proof. intros [text H]. discriminate H. Qed.

Lemma type_error_is_not : ~ is_transport_failure TypeError.
Proof. intros [text H]. discriminate H. Qed.

(** ** The claims *)

(** C1. For every response with a success status whose body is valid JSON,
    the loader completes and the value it exposes is the result of parsing
    the body, whatever that value is: nothing checks its shape.  In
    particular a status-200 response with the body [{"tables": []}] exposes
    the object whose one property [tables] is the empty array, and a success
    response with the body [null] exposes [null]. *)
Theorem loaded_value_is_parsed_body :
  (forall (net : network) (JSON_parse : string -> option Json.value)
          (r : Response) (v : Json.value),
      receives net JSON_parse r ->
      ok r = true ->
      JSON_parse (body r) = Some v ->
      outcome net JSON_parse = inl tt /\
      exposed net JSON_parse = Some v /\
      fst (get_neuralake (final net JSON_parse)) = inl v) /\
  (forall (net : network) (r : Response),
      receives net Json.parse r ->
      status r = 200%Z ->
      body r = tables_body ->
      exposed net Json.parse = Some tables_value) /\
  (forall (net : network) (r : Response),
      receives net Json.parse r ->
      ok r = true ->
      body r = "null" ->
      exposed net Json.parse = Some Json.JNull).
Proof.
  assert (G : forall net JSON_parse r v,
             receives net JSON_parse r -> ok r = true ->
             JSON_parse (body r) = Some v ->
             outcome net JSON_parse = inl tt /\
             exposed net JSON_parse = Some v /\
             fst (get_neuralake (final net JSON_parse)) = inl v).
  { intros net JSON_parse r v Hrecv Hok Hparse.
    apply receives_answer in Hrecv.
    unfold outcome, exposed, final.
    rewrite (run_loaded net JSON_parse r v Hrecv Hok Hparse).
    repeat split; reflexivity. }
  split; [exact G|]. split.
  - intros net r Hrecv Hstatus Hbody.
    apply (G net Json.parse r tables_value Hrecv).
    + unfold ok. rewrite Hstatus. reflexivity.
    + rewrite Hbody. vm_compute. reflexivity.
  - intros net r Hrecv Hok Hbody.
    apply (G net Json.parse r Json.JNull Hrecv Hok).
    rewrite Hbody. vm_compute. reflexivity.
Qed.

Lemma loaded_value_is_parsed_body_witness :
  receives (serve (respond 200 "OK" tables_body)) Json.parse
           (respond 200 "OK" tables_body) /\
  ok (respond 200 "OK" tables_body) = true /\
  Json.parse (body (respond 200 "OK" tables_body)) = Some tables_value /\
  exposed (serve (respond 200 "OK" tables_body)) Json.parse = Some tables_value.
Proof.
  assert (Hrecv : receives (serve (respond 200 "OK" tables_body)) Json.parse
                           (respond 200 "OK" tables_body)).
  { vm_compute. left. reflexivity. }
  assert (Hparse : Json.parse (body (respond 200 "OK" tables_body))
                   = Some tables_value).
  { vm_compute. reflexivity. }
  split; [exact Hrecv|]. split; [reflexivity|]. split; [exact Hparse|].
  exact (proj1 (proj2 (proj1 loaded_value_is_parsed_body _ _ _ _
                         Hrecv eq_refl Hparse))).
Defined.

(** C2. For every response with a status that is not a success status, the
    loader throws an error whose message contains the status text.  In
    particular a status-404 response with the status text [Not Found] makes
    it throw the error with the message [Failed to load data: Not Found]. *)
Theorem refused_message_contains_status_text :
  (forall (net : network) (JSON_parse : string -> option Json.value)
          (r : Response),
      receives net JSON_parse r ->
      ok r = false ->
      exists message,
        outcome net JSON_parse = inr (Error message) /\
        contains message (statusText r)) /\
  (forall (net : network) (JSON_parse : string -> option Json.value)
          (r : Response),
      receives net JSON_parse r ->
      status r = 404%Z ->
      statusText r = "Not Found" ->
      outcome net JSON_parse = inr (Error "Failed to load data: Not Found")).
Proof.
  split.
  - intros net JSON_parse r Hrecv Hok.
    apply receives_answer in Hrecv.
    exists ("Failed to load data: " ++ statusText r). split.
    + unfold outcome. rewrite (run_refused net JSON_parse r Hrecv Hok).
      reflexivity.
    + exists "Failed to load data: ", EmptyString.
      now rewrite append_empty_r.
  - intros net JSON_parse r Hrecv Hstatus Htext.
    apply receives_answer in Hrecv.
    unfold outcome. rewrite (run_refused net JSON_parse r Hrecv).
    + simpl. unfold transport_failure. rewrite Htext. reflexivity.
    + unfold ok. rewrite Hstatus. reflexivity.
Qed.

Lemma refused_message_contains_status_text_witness :
  receives (serve (respond 404 "Not Found" "<html>")) Json.parse
           (respond 404 "Not Found" "<html>") /\
  ok (respond 404 "Not Found" "<html>") = false /\
  outcome (serve (respond 404 "Not Found" "<html>")) Json.parse
    = inr (Error "Failed to load data: Not Found").
Proof.
  assert (Hrecv : receives (serve (respond 404 "Not Found" "<html>")) Json.parse
                           (respond 404 "Not Found" "<html>")).
  { vm_compute. left. reflexivity. }
  split; [exact Hrecv|]. split; [reflexivity|].
  exact (proj2 refused_message_contains_status_text _ _ _
           Hrecv eq_refl eq_refl).
Defined.

(** C3, as claimed: the transport failure is the loader's only error kind.
    It is not: a response with status 200 whose body is not JSON makes the
    loader throw a [SyntaxError], and a network that gives no response makes
    it throw [fetch]'s [TypeError]; neither is a transport failure. *)
Lemma only_error_kind_counterexample :
  ok (respond 200 "OK" "<html>") = true /\
  outcome (serve (respond 200 "OK" "<html>")) Json.parse = inr SyntaxError /\
  outcome unreachable Json.parse = inr TypeError /\
  ~ (forall (net : network) (JSON_parse : string -> option Json.value) (e : exn),
        outcome net JSON_parse = inr e -> is_transport_failure e).
Proof.
  assert (H : outcome (serve (respond 200 "OK" "<html>")) Json.parse
              = inr SyntaxError) by (vm_compute; reflexivity).
  repeat split; try reflexivity; try exact H.
  intros Hall. exact (syntax_error_is_not (Hall _ _ _ H)).
Qed.

(** C3, amended.  The loader throws a transport failure exactly when it has
    received a response that is not ok.  This is not its only error kind:
    the loader catches nothing, so the errors of the host reach its caller
    too, the parse error when a success response has a body that is not JSON
    and the error of [fetch] when no response is received, and neither is a
    transport failure. *)
Theorem transport_failure_iff_refused (net : network)
  (JSON_parse : string -> option Json.value) :
  ((exists e, outcome net JSON_parse = inr e /\ is_transport_failure e) <->
   (exists r, receives net JSON_parse r /\ ok r = false)) /\
  (forall r, receives net JSON_parse r ->
             ok r = true ->
             JSON_parse (body r) = None ->
             outcome net JSON_parse = inr SyntaxError /\
             ~ is_transport_failure SyntaxError) /\
  ((forall r, ~ receives net JSON_parse r) ->
   outcome net JSON_parse = inr TypeError /\
   ~ is_transport_failure TypeError).
Proof.
  split; [|split].
  - (* thrown exactly on a response that is not ok *)
    split.
    + intros [e [He Ht]]. unfold outcome in He.
      destruct (run_cases net JSON_parse)
        as [Hnet | r Hnet Hok | r Hnet Hok Hp | r v Hnet Hok Hp];
        simpl in He; try discriminate He; injection He as <-.
      * now destruct type_error_is_not.
      * exists r. split; [now apply answer_receives | exact Hok].
      * now destruct syntax_error_is_not.
    + intros [r [Hrecv Hok]]. apply receives_answer in Hrecv.
      exists (transport_failure r). unfold outcome.
      rewrite (run_refused net JSON_parse r Hrecv Hok).
      split; [reflexivity | apply transport_failure_is].
  - (* the parse error *)
    intros r Hrecv Hok Hparse. apply receives_answer in Hrecv.
    unfold outcome. rewrite (run_malformed net JSON_parse r Hrecv Hok Hparse).
    split; [reflexivity | exact syntax_error_is_not].
  - (* the error of fetch *)
    intros Hnone. unfold outcome.
    destruct (net [] data_request) as [r|] eqn:Hnet.
    + destruct (Hnone r (answer_receives net JSON_parse r Hnet)).
    + rewrite (run_unreachable net JSON_parse Hnet).
      split; [reflexivity | exact type_error_is_not].
Qed.

Lemma transport_failure_iff_refused_witness :
  (exists e, outcome (serve (respond 500 "Internal Server Error" EmptyString))
                     Json.parse = inr e /\ is_transport_failure e) /\
  outcome (serve (respond 200 "OK" "<html>")) Json.parse = inr SyntaxError /\
  outcome unreachable Json.parse = inr TypeError.
Proof.
  split; [|split].
  - apply (proj1 (transport_failure_iff_refused _ _)).
    exists (respond 500 "Internal Server Error" EmptyString).
    split; [vm_compute; left; reflexivity | reflexivity].
  - refine (proj1 (proj1 (proj2 (transport_failure_iff_refused
                                   (serve (respond 200 "OK" "<html>"))
                                   Json.parse))
                         (respond 200 "OK" "<html>") _ eq_refl _)).
    + vm_compute. left. reflexivity.
    + vm_compute. reflexivity.
  - refine (proj1 (proj2 (proj2 (transport_failure_iff_refused
                                   unreachable Json.parse)) _)).
    intros r Hr. vm_compute in Hr. exact Hr.
Defined.

(** C4. For every response with status 200 whose body is not valid JSON, the
    loader fails with the parse error: the error is the result of the load,
    the module is left failed with it, and whoever imports the module
    afterwards gets it thrown again. *)
Theorem malformed_body_parse_error (net : network)
  (JSON_parse : string -> option Json.value) (r : Response) :
  receives net JSON_parse r ->
  status r = 200%Z ->
  JSON_parse (body r) = None ->
  outcome net JSON_parse = inr SyntaxError /\
  data_status (final net JSON_parse) = Failed SyntaxError /\
  fst (import_data net JSON_parse (final net JSON_parse)) = inr SyntaxError.
Proof.
  intros Hrecv Hstatus Hparse. apply receives_answer in Hrecv.
  assert (Hok : ok r = true) by (unfold ok; rewrite Hstatus; reflexivity).
  unfold outcome, final.
  rewrite (run_malformed net JSON_parse r Hrecv Hok Hparse).
  repeat split; reflexivity.
Qed.

Lemma malformed_body_parse_error_witness :
  receives (serve (respond 200 "OK" "<html>")) Json.parse
           (respond 200 "OK" "<html>") /\
  Json.parse "<html>" = None /\
  outcome (serve (respond 200 "OK" "<html>")) Json.parse = inr SyntaxError.
Proof.
  assert (Hrecv : receives (serve (respond 200 "OK" "<html>")) Json.parse
                           (respond 200 "OK" "<html>")).
  { vm_compute. left. reflexivity. }
  assert (Hparse : Json.parse "<html>" = None) by (vm_compute; reflexivity).
  split; [exact Hrecv|]. split; [exact Hparse|].
  exact (proj1 (malformed_body_parse_error _ _ _ Hrecv eq_refl Hparse)).
Defined.

(** C5. The loader takes a response for a success exactly when its status
    code is between 200 and 299: then, and only then, it goes on to read the
    body, and otherwise, and only otherwise, it throws the transport failure.
    For a status outside the range the whole run is: the one call of
    [fetch], then the error carrying the status text; the body is not read,
    nothing is asked a second time, and the binding holds no value. *)
Theorem success_is_2xx (net : network)
  (JSON_parse : string -> option Json.value) (r : Response) :
  receives net JSON_parse r ->
  (In (BodyRead r) (trace (final net JSON_parse)) <->
   (200 <= status r <= 299)%Z) /\
  ((exists e, outcome net JSON_parse = inr e /\ is_transport_failure e) <->
   ~ (200 <= status r <= 299)%Z) /\
  (~ (200 <= status r <= 299)%Z ->
   import_data net JSON_parse initial =
     (inr (Error ("Failed to load data: " ++ statusText r)),
      mkRealm [Fetched "/data.json" None (Some r)]
              (Failed (Error ("Failed to load data: " ++ statusText r)))
              Uninitialized)).
Proof.
  intros Hrecv. apply receives_answer in Hrecv.
  rewrite <- ok_range. unfold outcome, final.
  destruct (ok r) eqn:Hok.
  - destruct (JSON_parse (body r)) as [v|] eqn:Hparse.
    + rewrite (run_loaded net JSON_parse r v Hrecv Hok Hparse). simpl.
      repeat split; try tauto; try congruence.
      intros [e [He _]]. discriminate He.
    + rewrite (run_malformed net JSON_parse r Hrecv Hok Hparse). simpl.
      repeat split; try tauto; try congruence.
      intros [e [He Ht]]. injection He as <-. now destruct syntax_error_is_not.
  - rewrite (run_refused net JSON_parse r Hrecv Hok). simpl.
    repeat split; try congruence.
    + intros [H | []]. discriminate H.
    + intros _. exists (transport_failure r).
      split; [reflexivity | apply transport_failure_is].
Qed.

Lemma success_is_2xx_witness :
  receives (serve (respond 300 "Multiple Choices" tables_body)) Json.parse
           (respond 300 "Multiple Choices" tables_body) /\
  ~ (200 <= status (respond 300 "Multiple Choices" tables_body) <= 299)%Z /\
  import_data (serve (respond 300 "Multiple Choices" tables_body))
              Json.parse initial =
    (inr (Error "Failed to load data: Multiple Choices"),
     mkRealm [Fetched "/data.json" None
                      (Some (respond 300 "Multiple Choices" tables_body))]
             (Failed (Error "Failed to load data: Multiple Choices"))
             Uninitialized).
Proof.
  assert (Hrecv : receives (serve (respond 300 "Multiple Choices" tables_body))
                           Json.parse
                           (respond 300 "Multiple Choices" tables_body)).
  { vm_compute. left. reflexivity. }
  assert (Hout : ~ (200 <= status (respond 300 "Multiple Choices" tables_body)
                    <= 299)%Z) by (simpl; lia).
  split; [exact Hrecv|]. split; [exact Hout|].
  exact (proj2 (proj2 (success_is_2xx _ _ _ Hrecv)) Hout).
Defined.

(** C6. Every execution of the module, whatever the network answers, calls
    [fetch] exactly once, with the constant reference [/data.json] and no
    second argument.  The request this makes is a GET of that path with an
    empty header list, no body and no query. *)
Theorem one_get_of_data_json (net : network)
  (JSON_parse : string -> option Json.value) :
  fetches (trace (final net JSON_parse)) = [("/data.json", None)] /\
  req_method data_request = "GET" /\
  req_url data_request = "/data.json" /\
  req_headers data_request = [] /\
  req_body data_request = None /\
  url_query (req_url data_request) = None.
Proof.
  split; [|repeat split].
  unfold final.
  destruct (run_cases net JSON_parse); reflexivity.
Qed.

(** C7. After a successful load, a consumer that imports the module and
    reads [neuralake] any number of times gets the loaded value every time,
    and the realm, with its trace, stays as the load left it: the one call of
    [fetch] made while the module was evaluated is the only one. *)
Theorem reads_never_refetch (net : network)
  (JSON_parse : string -> option Json.value) (v : Json.value) (n : nat) :
  exposed net JSON_parse = Some v ->
  consume net JSON_parse n (final net JSON_parse)
    = (inl (repeat v n), final net JSON_parse) /\
  length (fetches (trace (snd (consume net JSON_parse n (final net JSON_parse)))))
    = 1 /\
  fetches (trace initial) = [].
Proof.
  intros Hexp.
  assert (Hst : data_status (final net JSON_parse) = Evaluated /\
                neuralake (final net JSON_parse) = Initialized v).
  { unfold exposed, final in *.
    destruct (run_cases net JSON_parse); simpl in *;
      try discriminate; split; congruence. }
  destruct Hst as [Hst Hbind].
  rewrite (consume_evaluated net JSON_parse v n _ Hst Hbind). simpl.
  repeat split.
  unfold final. destruct (run_cases net JSON_parse); reflexivity.
Qed.

Lemma reads_never_refetch_witness :
  exposed (serve (respond 200 "OK" tables_body)) Json.parse = Some tables_value /\
  fst (consume (serve (respond 200 "OK" tables_body)) Json.parse 3
               (final (serve (respond 200 "OK" tables_body)) Json.parse))
    = inl [tables_value; tables_value; tables_value].
Proof.
  assert (Hexp : exposed (serve (respond 200 "OK" tables_body)) Json.parse
                 = Some tables_value) by (vm_compute; reflexivity).
  split; [exact Hexp|].
  exact (f_equal fst (proj1 (reads_never_refetch _ _ _ 3 Hexp))).
Defined.

(** C8. For every response whose status is not a success status, the message
    of the error thrown is exactly [Failed to load data: ] followed by the
    response's status text. *)
Theorem refused_message_exact (net : network)
  (JSON_parse : string -> option Json.value) (r : Response) :
  receives net JSON_parse r ->
  ok r = false ->
  outcome net JSON_parse
    = inr (Error ("Failed to load data: " ++ statusText r)).
Proof.
  intros Hrecv Hok. apply receives_answer in Hrecv.
  unfold outcome. rewrite (run_refused net JSON_parse r Hrecv Hok).
  reflexivity.
Qed.

Lemma refused_message_exact_witness :
  receives (serve (respond 503 "Service Unavailable" EmptyString)) Json.parse
           (respond 503 "Service Unavailable" EmptyString) /\
  ok (respond 503 "Service Unavailable" EmptyString) = false /\
  outcome (serve (respond 503 "Service Unavailable" EmptyString)) Json.parse
    = inr (Error "Failed to load data: Service Unavailable").
Proof.
  assert (Hrecv : receives (serve (respond 503 "Service Unavailable" EmptyString))
                           Json.parse
                           (respond 503 "Service Unavailable" EmptyString)).
  { vm_compute. left. reflexivity. }
  split; [exact Hrecv|]. split; [reflexivity|].
  exact (refused_message_exact _ _ _ Hrecv eq_refl).
Defined.

(** A failed load leaves the binding without a value and the module failed
    with the error thrown. *)
Lemma failure_leaves_uninitialized (net : network)
  (JSON_parse : string -> option Json.value) (e : exn) :
  outcome net JSON_parse = inr e ->
  neuralake (final net JSON_parse) = Uninitialized /\
  data_status (final net JSON_parse) = Failed e.
Proof.
  unfold outcome, final.
  destruct (run_cases net JSON_parse); simpl; intros He;
    try discriminate; injection He as <-; split; reflexivity.
Qed.

(** C9. On a failure, be it a status that is not a success status or a body
    that is not JSON, and in fact on every failure of the load, the binding
    [neuralake] is never initialised: the loader exposes no value, a read of
    the binding throws, and a consumer that imports the module gets the
    load's error instead of any value. *)
Theorem failure_exposes_nothing (net : network)
  (JSON_parse : string -> option Json.value) :
  (forall r, receives net JSON_parse r ->
             ok r = false \/ JSON_parse (body r) = None ->
             exists e, outcome net JSON_parse = inr e) /\
  (forall e, outcome net JSON_parse = inr e ->
             neuralake (final net JSON_parse) = Uninitialized /\
             exposed net JSON_parse = None /\
             fst (get_neuralake (final net JSON_parse)) = inr ReferenceError /\
             forall n, consume net JSON_parse (S n) (final net JSON_parse)
                       = (inr e, final net JSON_parse)).
Proof.
  split.
  - intros r Hrecv Hfail. apply receives_answer in Hrecv. unfold outcome.
    destruct (ok r) eqn:Hok.
    + destruct Hfail as [Hfail | Hparse]; [discriminate|].
      rewrite (run_malformed net JSON_parse r Hrecv Hok Hparse).
      now exists SyntaxError.
    + rewrite (run_refused net JSON_parse r Hrecv Hok).
      now exists (transport_failure r).
  - intros e He.
    destruct (failure_leaves_uninitialized net JSON_parse e He) as [Hbind Hst].
    unfold exposed, get_neuralake. rewrite Hbind.
    repeat split. intros n. now apply consume_failed.
Qed.

Lemma failure_exposes_nothing_witness :
  (exists e, outcome (serve (respond 200 "OK" "{")) Json.parse = inr e) /\
  exposed (serve (respond 404 "Not Found" tables_body)) Json.parse = None.
Proof.
  split.
  - apply (proj1 (failure_exposes_nothing _ _) (respond 200 "OK" "{")).
    + vm_compute. left. reflexivity.
    + right. vm_compute. reflexivity.
  - apply (proj2 (failure_exposes_nothing _ _)
                 (Error "Failed to load data: Not Found")).
    vm_compute. reflexivity.
Defined.

(** C10. Two executions that receive responses with the same status, the
    same status text and the same body end the same way: the same result of
    the load, hence the same error with the same message on a failure, and
    the same exposed value.  Nothing else of the response or of the network
    matters. *)
Theorem outcome_determined_by_response (net1 net2 : network)
  (JSON_parse : string -> option Json.value) (r1 r2 : Response) :
  receives net1 JSON_parse r1 ->
  receives net2 JSON_parse r2 ->
  status r1 = status r2 ->
  statusText r1 = statusText r2 ->
  body r1 = body r2 ->
  outcome net1 JSON_parse = outcome net2 JSON_parse /\
  exposed net1 JSON_parse = exposed net2 JSON_parse /\
  data_status (final net1 JSON_parse) = data_status (final net2 JSON_parse).
Proof.
  intros H1 H2 Hstatus Htext Hbody.
  apply receives_answer in H1. apply receives_answer in H2.
  assert (Hok : ok r1 = ok r2) by (unfold ok; now rewrite Hstatus).
  unfold outcome, exposed, final.
  destruct (ok r1) eqn:Hok1; symmetry in Hok.
  - destruct (JSON_parse (body r1)) as [v|] eqn:Hparse.
    + rewrite (run_loaded net1 JSON_parse r1 v H1 Hok1 Hparse).
      rewrite Hbody in Hparse.
      rewrite (run_loaded net2 JSON_parse r2 v H2 Hok Hparse).
      repeat split.
    + rewrite (run_malformed net1 JSON_parse r1 H1 Hok1 Hparse).
      rewrite Hbody in Hparse.
      rewrite (run_malformed net2 JSON_parse r2 H2 Hok Hparse).
      repeat split.
  - rewrite (run_refused net1 JSON_parse r1 H1 Hok1).
    rewrite (run_refused net2 JSON_parse r2 H2 Hok).
    unfold transport_failure. rewrite Htext. repeat split.
Qed.

Lemma outcome_determined_by_response_witness :
  outcome (serve (respond 200 "OK" tables_body)) Json.parse
  = outcome (fun t _ => match t with
                        | [] => Some (mkResponse 200 "OK" [] "/elsewhere.json"
                                                 true tables_body)
                        | _ :: _ => None
                        end) Json.parse.
Proof.
  refine (proj1 (outcome_determined_by_response
                   (serve (respond 200 "OK" tables_body))
                   (fun t _ => match t with
                               | [] => Some (mkResponse 200 "OK" []
                                               "/elsewhere.json" true tables_body)
                               | _ :: _ => None
                               end)
                   Json.parse
                   (respond 200 "OK" tables_body)
                   (mkResponse 200 "OK" [] "/elsewhere.json" true tables_body)
                   _ _ eq_refl eq_refl eq_refl)).
  - vm_compute. left. reflexivity.
  - vm_compute. left. reflexivity.
Defined.

(** ** The module body from any realm *)

(** What the body does when it runs in a realm where other events have
    already been recorded: the four runs again, with the network asked in the
    light of the trace so far. *)
Lemma data_ts_from (net : network) (JSON_parse : string -> option Json.value)
  (w : realm) :
  data_ts net JSON_parse w =
    match net (trace w) data_request with
    | None =>
        (inr TypeError,
         mkRealm (trace w ++ [Fetched "/data.json" None None])%list
                 (data_status w) (neuralake w))
    | Some r =>
        if ok r then
          match JSON_parse (body r) with
          | Some v =>
              (inl tt,
               mkRealm (trace w ++ [Fetched "/data.json" None (Some r);
                                    BodyRead r])%list
                       (data_status w) (Initialized v))
          | None =>
              (inr SyntaxError,
               mkRealm (trace w ++ [Fetched "/data.json" None (Some r);
                                    BodyRead r])%list
                       (data_status w) (neuralake w))
          end
        else
          (inr (transport_failure r),
           mkRealm (trace w ++ [Fetched "/data.json" None (Some r)])%list
                   (data_status w) (neuralake w))
    end.
Proof.
  run_loader.
  destruct (net (trace w) _) as [r|]; simpl; [|reflexivity].
  destruct (ok r); simpl; [|reflexivity].
  rewrite <- app_assoc. simpl.
  destruct (JSON_parse (body r)); reflexivity.
Qed.

(** The status text can be read back from the message of a transport
    failure. *)
Lemma transport_failure_text (r : Response) (message : string) :
  transport_failure r = Error message ->
  Json.strip_prefix "Failed to load data: " message = Some (statusText r).
Proof.
  unfold transport_failure. intros H. injection H as <-. reflexivity.
Qed.

(** ** Further properties of the loader *)

(** X1. The loader exposes a value only if it received a success response
    whose body parses to that very value, and then it does: no value is ever
    made up, defaulted or taken from anywhere else. *)
Theorem exposed_iff_parsed (net : network)
  (JSON_parse : string -> option Json.value) (v : Json.value) :
  exposed net JSON_parse = Some v <->
  exists r, receives net JSON_parse r /\ ok r = true /\
            JSON_parse (body r) = Some v.
Proof.
  split.
  - unfold exposed, final. intros Hexp.
    destruct (run_cases net JSON_parse)
      as [Hnet | r Hnet Hok | r Hnet Hok Hp | r v' Hnet Hok Hp];
      simpl in Hexp; try discriminate.
    injection Hexp as <-. exists r.
    split; [now apply answer_receives|]. now split.
  - intros [r [Hrecv [Hok Hparse]]]. apply receives_answer in Hrecv.
    unfold exposed, final.
    now rewrite (run_loaded net JSON_parse r v Hrecv Hok Hparse).
Qed.

Lemma exposed_iff_parsed_witness :
  exists r, receives (serve (respond 200 "OK" tables_body)) Json.parse r /\
            ok r = true /\ Json.parse (body r) = Some tables_value.
Proof.
  apply (proj1 (exposed_iff_parsed _ _ _)). vm_compute. reflexivity.
Defined.

(** X2. On a success response only the body counts: two executions that
    receive success responses with the same body end the same way and expose
    the same value, whatever the two status codes within 200..299, the status
    texts and the rest of the responses are. *)
Theorem success_depends_on_body_only (net1 net2 : network)
  (JSON_parse : string -> option Json.value) (r1 r2 : Response) :
  receives net1 JSON_parse r1 ->
  receives net2 JSON_parse r2 ->
  ok r1 = true ->
  ok r2 = true ->
  body r1 = body r2 ->
  outcome net1 JSON_parse = outcome net2 JSON_parse /\
  exposed net1 JSON_parse = exposed net2 JSON_parse.
Proof.
  intros H1 H2 Hok1 Hok2 Hbody.
  apply receives_answer in H1. apply receives_answer in H2.
  unfold outcome, exposed, final.
  destruct (JSON_parse (body r1)) as [v|] eqn:Hparse.
  - rewrite (run_loaded net1 JSON_parse r1 v H1 Hok1 Hparse).
    rewrite Hbody in Hparse.
    rewrite (run_loaded net2 JSON_parse r2 v H2 Hok2 Hparse). now split.
  - rewrite (run_malformed net1 JSON_parse r1 H1 Hok1 Hparse).
    rewrite Hbody in Hparse.
    rewrite (run_malformed net2 JSON_parse r2 H2 Hok2 Hparse). now split.
Qed.

Lemma success_depends_on_body_only_witness :
  outcome (serve (respond 200 "OK" tables_body)) Json.parse
    = outcome (serve (respond 201 "Created" tables_body)) Json.parse /\
  exposed (serve (respond 200 "OK" tables_body)) Json.parse
    = exposed (serve (respond 201 "Created" tables_body)) Json.parse.
Proof.
  refine (success_depends_on_body_only
            (serve (respond 200 "OK" tables_body))
            (serve (respond 201 "Created" tables_body))
            Json.parse
            (respond 200 "OK" tables_body)
            (respond 201 "Created" tables_body)
            _ _ eq_refl eq_refl eq_refl).
  - vm_compute. left. reflexivity.
  - vm_compute. left. reflexivity.
Defined.

(** X3. On a response that is not a success only the status text counts: two
    executions that receive such responses throw the same error exactly when
    the two status texts are the same.  The status code, the body and the
    parser do not show in the error. *)
Theorem failure_depends_on_status_text_only (net1 net2 : network)
  (parse1 parse2 : string -> option Json.value) (r1 r2 : Response) :
  receives net1 parse1 r1 ->
  receives net2 parse2 r2 ->
  ok r1 = false ->
  ok r2 = false ->
  (outcome net1 parse1 = outcome net2 parse2 <-> statusText r1 = statusText r2).
Proof.
  intros H1 H2 Hok1 Hok2.
  apply receives_answer in H1. apply receives_answer in H2.
  unfold outcome.
  rewrite (run_refused net1 parse1 r1 H1 Hok1).
  rewrite (run_refused net2 parse2 r2 H2 Hok2). simpl.
  split.
  - intros Heq. injection Heq as Heq.
    pose proof (transport_failure_text r1 _ eq_refl) as T1.
    pose proof (transport_failure_text r2 _ eq_refl) as T2.
    rewrite Heq in T1. congruence.
  - intros Htext. unfold transport_failure. now rewrite Htext.
Qed.

Lemma failure_depends_on_status_text_only_witness :
  outcome (serve (respond 404 EmptyString "<html>")) Json.parse
    = outcome (serve (respond 500 EmptyString tables_body)) (fun _ => None).
Proof.
  refine (proj2 (failure_depends_on_status_text_only
                   (serve (respond 404 EmptyString "<html>"))
                   (serve (respond 500 EmptyString tables_body))
                   Json.parse (fun _ => None)
                   (respond 404 EmptyString "<html>")
                   (respond 500 EmptyString tables_body)
                   _ _ eq_refl eq_refl) eq_refl).
  - vm_compute. left. reflexivity.
  - vm_compute. left. reflexivity.
Defined.

(** X4. Run in any realm, the module body keeps the events recorded before
    it and adds at most two host operations, in this order: the one call of
    [fetch], answered by the network in the light of what came before, and
    then, only if the answer is a success response, one read of the body of
    that very response.  No body is read twice and none is read of a
    response the loader turns down. *)
Theorem body_host_operations (net : network)
  (JSON_parse : string -> option Json.value) (w : realm) :
  trace (snd (data_ts net JSON_parse w)) =
    (trace w ++
     Fetched "/data.json" None (net (trace w) data_request) ::
     match net (trace w) data_request with
     | Some r => if ok r then [BodyRead r] else []
     | None => []
     end)%list.
Proof.
  rewrite data_ts_from.
  destruct (net (trace w) data_request) as [r|]; [|reflexivity].
  destruct (ok r); [|reflexivity].
  destruct (JSON_parse (body r)); reflexivity.
Qed.

(** X5. Run in any realm, the module body never changes the module's status,
    and it writes the binding only when it completes: when it throws, the
    binding is what it was before, and when it completes, the binding holds
    the parse of the body of the success response the network gave. *)
Theorem body_writes_binding_last (net : network)
  (JSON_parse : string -> option Json.value) (w : realm) :
  data_status (snd (data_ts net JSON_parse w)) = data_status w /\
  (forall e, fst (data_ts net JSON_parse w) = inr e ->
             neuralake (snd (data_ts net JSON_parse w)) = neuralake w) /\
  (fst (data_ts net JSON_parse w) = inl tt ->
   exists r v, net (trace w) data_request = Some r /\ ok r = true /\
               JSON_parse (body r) = Some v /\
               neuralake (snd (data_ts net JSON_parse w)) = Initialized v).
Proof.
  rewrite data_ts_from.
  destruct (net (trace w) data_request) as [r|] eqn:Hnet.
  - destruct (ok r) eqn:Hok.
    + destruct (JSON_parse (body r)) as [v|] eqn:Hparse; simpl.
      * repeat split; try discriminate.
        intros _. exists r, v. now repeat split.
      * repeat split; discriminate.
    + simpl. repeat split; discriminate.
  - simpl. repeat split; discriminate.
Qed.

Lemma body_writes_binding_last_witness :
  neuralake (snd (data_ts (serve (respond 200 "OK" "<html>")) Json.parse
                          (mkRealm [Fetched "/app.js" None None]
                                   Linked Uninitialized)))
  = Uninitialized.
Proof.
  exact (proj1 (proj2 (body_writes_binding_last
                         (serve (respond 200 "OK" "<html>")) Json.parse
                         (mkRealm [Fetched "/app.js" None None]
                                  Linked Uninitialized)))
               SyntaxError eq_refl).
Defined.
